(** * The cpp-cli template of nix-polyglot: a shallow embedding and its properties

    The development embeds the four C++ files of [templates/cpp/cpp-cli]:

    - [include/hello.hpp] and [src/hello.cpp]  (module [hello]),
    - [src/main.cpp]                            (module [app]),
    - [tests/test_hello.cpp]                    (module [test_hello]).

    [std::string] is a sequence of bytes, modelled by [string] (one [ascii]
    per byte; the decorative emoji are their UTF-8 encodings).  An output
    stream is the sequence of bytes written to it so far.  [int] is the
    32-bit signed integer of the targets the template is built for; a signed
    overflow is undefined behaviour and is modelled by [None]. *)

From Stdlib Require Import String Ascii ZArith List Lia Bool DecimalString.
From Equations Require Import Equations.
Import ListNotations.

Local Open Scope string_scope.
Local Open Scope Z_scope.

(** ** C++ [int] *)

Module Int.

Definition min : Z := - 2 ^ 31.
Definition max : Z := 2 ^ 31 - 1.

Definition in_range (z : Z) : Prop := min <= z <= max.

(** [++i] and [i++]: the successor, undefined at [INT_MAX]. *)
Definition incr (i : Z) : option Z :=
  if i <? max then Some (i + 1) else None.

(** [a - b], undefined when the difference is not representable. *)
Definition sub (a b : Z) : option Z :=
  if (min <=? a - b) && (a - b <=? max) then Some (a - b) else None.

End Int.

(** ** Strings and output streams *)

(** The line feed, ['\n']. *)
Definition LF : ascii := "010"%char.
Definition nl : string := String LF EmptyString.

(** [s.find(pat)]: the position of the first occurrence of [pat] in [s];
    [std::string::npos] is [None]. *)
Definition npos : option nat := None.

Definition find (s pat : string) : option nat := index 0 pat s.

Definition is_npos (r : option nat) : bool :=
  match r with
  | None => true
  | Some _ => false
  end.

(** [s.empty()] *)
Definition empty (s : string) : bool :=
  match s with
  | EmptyString => true
  | String _ _ => false
  end.

(** The decimal text that [operator<<] writes for an integer. *)
Definition show_int (z : Z) : string := NilZero.string_of_int (Z.to_int z).

Definition ostream : Type := string.

(** The overloads of [operator<<] used by the template. *)
Class Insertable (T : Type) : Type := insert : ostream -> T -> ostream.

Inductive manipulator : Type := endl.

#[global] Instance insert_string : Insertable string :=
  fun os s => os ++ s.
#[global] Instance insert_int : Insertable Z :=
  fun os z => os ++ show_int z.
(** [std::endl] writes a line feed and flushes; flushing does not change the
    bytes written. *)
#[global] Instance insert_manipulator : Insertable manipulator :=
  fun os m => match m with endl => os ++ nl end.

Declare Scope stream_scope.
Delimit Scope stream_scope with stream.
Notation "os << x" := (insert os x)
  (at level 65, left associativity) : stream_scope.
Local Open Scope stream_scope.

(** ** Vocabulary of the properties: substrings and lines *)

(** [t] occurs in [s]. *)
Definition contains (s t : string) : Prop :=
  exists pre post, s = pre ++ t ++ post.

Fixpoint newline_free (s : string) : bool :=
  match s with
  | EmptyString => true
  | String c s' => negb (Ascii.eqb c LF) && newline_free s'
  end.

(** The lines of a text: maximal runs of bytes other than line feed, each
    ended by a line feed or by the end of the text. *)
Fixpoint lines (s : string) : list string :=
  match s with
  | EmptyString => []
  | String c s' =>
      if Ascii.eqb c LF then EmptyString :: lines s'
      else match lines s' with
           | [] => [String c EmptyString]
           | l :: ls => String c l :: ls
           end
  end.

(** ** hello.hpp and hello.cpp *)

Module hello.

(** The default arguments declared in [hello.hpp]. *)
Definition get_greeting_default_name : string := "World".
Definition print_count_default_count : Z := 5.

Definition get_greeting (name : string) : string :=
  "Hello, " ++ name ++ " from C++! 🚀".

(** A call [get_greeting(args)], with the declared default filled in when the
    argument is left out. *)
Definition call_get_greeting (arg : option string) : string :=
  match arg with
  | Some name => get_greeting name
  | None => get_greeting get_greeting_default_name
  end.

Definition inspect {A : Type} (x : A) : {y : A | x = y} :=
  exist _ x eq_refl.

(** [for (int i = 0; i < count; ++i) std::cout << "Count: " << i << std::endl;]
    from the state in which the loop variable is [i]. *)
Equations? print_count_loop (count i : Z) (cout : ostream) : option ostream
  by wf (Z.to_nat (count - i)) lt :=
  print_count_loop count i cout with Z_lt_dec i count := {
    | right _ := Some cout
    | left _ with inspect (Int.incr i) := {
        | exist _ (Some i') _ :=
            print_count_loop count i' (cout << "Count: " << i << endl)
        | exist _ None _ := None } }.
Proof.
  unfold Int.incr in e. destruct (i <? Int.max); [| discriminate].
  injection e as <-. lia.
Qed.

Definition print_count (count : Z) (cout : ostream) : option ostream :=
  let cout := cout << "Counting demonstration:" ++ nl in
  print_count_loop count 0 cout.

(** A call [print_count(args)]. *)
Definition call_print_count (arg : option Z) (cout : ostream) : option ostream :=
  match arg with
  | Some count => print_count count cout
  | None => print_count print_count_default_count cout
  end.

(** The macros [get_build_info] consults: whether each tested macro is
    defined, and the values of those that are written to the stream. *)
Record Macros : Type := {
  defined_DEBUG_BUILD : bool;
  defined_RELEASE_BUILD : bool;
  defined___clang__ : bool;
  __clang_major__ : Z;
  __clang_minor__ : Z;
  defined___GNUC__ : bool;
  __GNUC__ : Z;
  __GNUC_MINOR__ : Z;
  __cplusplus : Z
}.

Definition get_build_info (m : Macros) : string :=
  let info : ostream := "" in
  let info :=
    if defined_DEBUG_BUILD m then
      info << "🔧 Running DEBUG build (dev mode)"
    else if defined_RELEASE_BUILD m then
      info << "🚀 Running RELEASE build (optimized)"
    else
      info << "📦 Standard build" in
  let info := info << nl ++ "Compiler: " in
  let info :=
    if defined___clang__ m then
      info << "Clang " << __clang_major__ m << "." << __clang_minor__ m
    else if defined___GNUC__ m then
      info << "GCC " << __GNUC__ m << "." << __GNUC_MINOR__ m
    else
      info << "Unknown compiler" in
  let info := info << nl ++ "C++ Standard: " << __cplusplus m in
  info.

End hello.

(** ** main.cpp *)

Module app.

Definition main (m : hello.Macros) (cout : ostream) : option (Z * ostream) :=
  let cout := cout << hello.get_greeting "World" << endl in
  let cout :=
    cout << "This is a C++ console application created with nix-polyglot."
              ++ nl << endl in
  let cout := cout << hello.get_build_info m << nl << endl in
  match hello.print_count 5 cout with
  | Some cout => Some (0, cout)
  | None => None
  end.

End app.

(** ** test_hello.cpp *)

Module test_hello.

(** What [hello.hpp] promises the test program: the two functions it calls.
    The test program is modelled over every implementation of them, so that
    failing checks can be spoken of. *)
Record hello_hpp : Type := {
  get_greeting : string -> string;
  get_build_info : unit -> string
}.

(** The implementation of [hello.cpp], compiled with the macros [m]. *)
Definition hello_cpp (m : hello.Macros) : hello_hpp := {|
  get_greeting := hello.get_greeting;
  get_build_info := fun _ => hello.get_build_info m
|}.

(** The state of the test process: the two global counters and the bytes
    written to standard output. *)
Record process : Type := {
  test_count : Z;
  test_passed : Z;
  cout : ostream
}.

(** Static initialisation: [int test_count = 0; int test_passed = 0;]. *)
Definition start : process :=
  {| test_count := 0; test_passed := 0; cout := "" |}.

(** Computations of the test process: they read and write the state and may
    hit undefined behaviour ([None]). *)
Definition M (A : Type) : Type := process -> option (A * process).

Definition ret {A : Type} (a : A) : M A := fun st => Some (a, st).

Definition bind {A B : Type} (c : M A) (k : A -> M B) : M B :=
  fun st =>
    match c st with
    | Some (a, st') => k a st'
    | None => None
    end.

Notation "x <- c ;; k" := (bind c (fun x => k))
  (at level 100, c at next level, right associativity).
Notation "c ;; k" := (bind c (fun _ => k))
  (at level 100, right associativity).

(** [std::cout << ...]: [w] is the chain of insertions. *)
Definition write (w : ostream -> ostream) : M unit :=
  fun st =>
    Some (tt, {| test_count := test_count st;
                 test_passed := test_passed st;
                 cout := w (cout st) |}).

Definition read {A : Type} (f : process -> A) : M A :=
  fun st => Some (f st, st).

Definition lift {A : Type} (o : option A) : M A :=
  fun st =>
    match o with
    | Some a => Some (a, st)
    | None => None
    end.

(** [test_count++;] *)
Definition incr_test_count : M unit :=
  fun st =>
    match Int.incr (test_count st) with
    | Some n =>
        Some (tt, {| test_count := n;
                     test_passed := test_passed st;
                     cout := cout st |})
    | None => None
    end.

(** [test_passed++;] *)
Definition incr_test_passed : M unit :=
  fun st =>
    match Int.incr (test_passed st) with
    | Some n =>
        Some (tt, {| test_count := test_count st;
                     test_passed := n;
                     cout := cout st |})
    | None => None
    end.

Definition test_assert (condition : bool) (test_name : string) : M unit :=
  incr_test_count ;;
  if condition then
    incr_test_passed ;;
    write (fun os => os << "✅ PASS: " << test_name << endl)
  else
    write (fun os => os << "❌ FAIL: " << test_name << endl).

Section Main.

Variable lib : hello_hpp.

Definition main : M Z :=
  write (fun os => os << "Running C++ tests..." ++ nl << endl) ;;
  (* Test get_greeting function *)
  (let greeting := get_greeting lib "Test" in
   test_assert (negb (is_npos (find greeting "Hello, Test")))
               "get_greeting should contain 'Hello, Test'" ;;
   test_assert (negb (is_npos (find greeting "C++")))
               "get_greeting should contain 'C++'") ;;
  (* Test default greeting *)
  (let default_greeting := get_greeting lib hello.get_greeting_default_name in
   test_assert (negb (is_npos (find default_greeting "World")))
               "default greeting should contain 'World'") ;;
  (* Test build info *)
  (let build_info := get_build_info lib tt in
   test_assert (negb (empty build_info)) "build_info should not be empty" ;;
   test_assert (negb (is_npos (find build_info "build")))
               "build_info should contain 'build'") ;;
  (* Results *)
  write (fun os => os << nl ++ "📊 Test Results:" << endl) ;;
  count <- read test_count ;;
  write (fun os => os << "Tests run: " << count << endl) ;;
  passed <- read test_passed ;;
  write (fun os => os << "Tests passed: " << passed << endl) ;;
  count <- read test_count ;;
  passed <- read test_passed ;;
  failed <- lift (Int.sub count passed) ;;
  write (fun os => os << "Tests failed: " << failed << endl) ;;
  passed <- read test_passed ;;
  count <- read test_count ;;
  if passed =? count then
    write (fun os => os << "🎉 All tests passed!" << endl) ;;
    ret 0
  else
    write (fun os => os << "💥 Some tests failed!" << endl) ;;
    ret 1.

(** The checks of [main], in program order: the asserted condition and the
    label of each. *)
Definition checks : list (bool * string) :=
  let greeting := get_greeting lib "Test" in
  let default_greeting := get_greeting lib hello.get_greeting_default_name in
  let build_info := get_build_info lib tt in
  [ (negb (is_npos (find greeting "Hello, Test")),
     "get_greeting should contain 'Hello, Test'");
    (negb (is_npos (find greeting "C++")),
     "get_greeting should contain 'C++'");
    (negb (is_npos (find default_greeting "World")),
     "default greeting should contain 'World'");
    (negb (empty build_info), "build_info should not be empty");
    (negb (is_npos (find build_info "build")),
     "build_info should contain 'build'") ].

End Main.

(** Calling [test_assert] on a list of checks, one after the other. *)
Fixpoint run_checks (cs : list (bool * string)) : M unit :=
  match cs with
  | [] => ret tt
  | (condition, test_name) :: cs' =>
      test_assert condition test_name ;; run_checks cs'
  end.

(** The banner that [main] prints before the first check. *)
Definition banner : M unit :=
  write (fun os => os << "Running C++ tests..." ++ nl << endl).

(** The report and exit status with which [main] ends. *)
Definition report : M Z :=
  write (fun os => os << nl ++ "📊 Test Results:" << endl) ;;
  count <- read test_count ;;
  write (fun os => os << "Tests run: " << count << endl) ;;
  passed <- read test_passed ;;
  write (fun os => os << "Tests passed: " << passed << endl) ;;
  count <- read test_count ;;
  passed <- read test_passed ;;
  failed <- lift (Int.sub count passed) ;;
  write (fun os => os << "Tests failed: " << failed << endl) ;;
  passed <- read test_passed ;;
  count <- read test_count ;;
  if passed =? count then
    write (fun os => os << "🎉 All tests passed!" << endl) ;;
    ret 0
  else
    write (fun os => os << "💥 Some tests failed!" << endl) ;;
    ret 1.

(** How many checks of a list hold, and how many do not. *)
Definition holding (cs : list (bool * string)) : nat :=
  length (filter (fun c => fst c) cs).

Definition failing (cs : list (bool * string)) : nat :=
  length (filter (fun c => negb (fst c)) cs).

End test_hello.

(** The byte [c] occurs in [s]. *)
Fixpoint has_char (c : ascii) (s : string) : bool :=
  match s with
  | EmptyString => false
  | String d s' => Ascii.eqb c d || has_char c s'
  end.

(** ** Vocabulary of the properties: build modes, body lines, verdicts *)

Inductive build_mode : Type := debug | release | standard.

(** The text [get_build_info] writes for a build mode, and the word in it
    that tells the modes apart. *)
Definition mode_label (b : build_mode) : string :=
  match b with
  | debug => "🔧 Running DEBUG build (dev mode)"
  | release => "🚀 Running RELEASE build (optimized)"
  | standard => "📦 Standard build"
  end.

Definition mode_word (b : build_mode) : string :=
  match b with
  | debug => "DEBUG"
  | release => "RELEASE"
  | standard => "Standard"
  end.

(** The body lines of [print_count] for a list of indices, each with its
    line feed. *)
Fixpoint body_text (indices : list Z) : string :=
  match indices with
  | [] => ""
  | i :: rest => "Count: " ++ show_int i ++ nl ++ body_text rest
  end.

(** The indices [first], [first + 1], ... ([n] of them). *)
Definition indices_from (first n : nat) : list Z :=
  map Z.of_nat (seq first n).

(** The line [test_assert] prints for a check, and the lines for a list of
    checks. *)
Definition verdict (c : bool * string) : string :=
  (if fst c then "✅ PASS: " else "❌ FAIL: ") ++ snd c ++ nl.

(** The same line without its line feed. *)
Definition verdict_line (c : bool * string) : string :=
  (if fst c then "✅ PASS: " else "❌ FAIL: ") ++ snd c.

Fixpoint verdicts (cs : list (bool * string)) : string :=
  match cs with
  | [] => ""
  | c :: cs' => verdict c ++ verdicts cs'
  end.

(** The rocket that ends a greeting, byte by byte (U+1F680 in UTF-8). *)
Definition rocket : string :=
  String (ascii_of_nat 240) (String (ascii_of_nat 159)
    (String (ascii_of_nat 154) (String (ascii_of_nat 128) EmptyString))).

(** A sample configuration: a release build with GCC 13.2 and C++17. *)
Definition gcc_release : hello.Macros := {|
  hello.defined_DEBUG_BUILD := false;
  hello.defined_RELEASE_BUILD := true;
  hello.defined___clang__ := false;
  hello.__clang_major__ := 0;
  hello.__clang_minor__ := 0;
  hello.defined___GNUC__ := true;
  hello.__GNUC__ := 13;
  hello.__GNUC_MINOR__ := 2;
  hello.__cplusplus := 201703
|}.

(** * Properties *)

(** ** Strings *)

Section StringFacts.

Lemma append_nil_r (s : string) : s ++ "" = s.
Proof. induction s as [| c s IH]; simpl; [reflexivity | now rewrite IH]. Qed.

Lemma append_assoc (s t u : string) : (s ++ t) ++ u = s ++ t ++ u.
Proof. induction s as [| c s IH]; simpl; [reflexivity | now rewrite IH]. Qed.

Lemma length_append (s t : string) :
  String.length (s ++ t) = (String.length s + String.length t)%nat.
Proof. induction s as [| c s IH]; simpl; [reflexivity | now rewrite IH]. Qed.

Lemma prefix_append (p post : string) : prefix p (p ++ post) = true.
Proof.
  induction p as [| c p IH]; simpl.
  - now destruct post.
  - destruct (ascii_dec c c) as [_ | ne]; [exact IH | now elim ne].
Qed.

Lemma prefix_split (p s : string) :
  prefix p s = true -> exists post, s = p ++ post.
Proof.
  revert s. induction p as [| c p IH]; intros s Hp.
  - now exists s.
  - destruct s as [| d s]; simpl in Hp; [discriminate |].
    destruct (ascii_dec c d) as [-> | _]; [| discriminate].
    destruct (IH s Hp) as [post ->]. now exists post.
Qed.

Lemma contains_refl (s : string) : contains s s.
Proof. exists "", "". simpl. now rewrite append_nil_r. Qed.

Lemma contains_cons (c : ascii) (s t : string) :
  contains s t -> contains (String c s) t.
Proof. intros (pre & post & ->). now exists (String c pre), post. Qed.

Lemma contains_append_l (s u t : string) :
  contains s t -> contains (s ++ u) t.
Proof.
  intros (pre & post & ->). exists pre, (post ++ u).
  now rewrite !append_assoc.
Qed.

Lemma contains_append_r (u s t : string) :
  contains s t -> contains (u ++ s) t.
Proof.
  intros (pre & post & ->). exists (u ++ pre), post.
  now rewrite !append_assoc.
Qed.

(** [find] answers a position exactly when the pattern occurs. *)
Lemma find_Some_contains (s t : string) (n : nat) :
  find s t = Some n -> contains s t.
Proof.
  unfold find. revert n. induction s as [| c s IH]; intros n H.
  - simpl in H. destruct t; [apply contains_refl | discriminate].
  - cbn [index] in H.
    destruct (prefix t (String c s)) eqn:Hp.
    + destruct (prefix_split _ _ Hp) as [post ->]. now exists "", post.
    + destruct (index 0 t s) as [k |]; [| discriminate].
      apply contains_cons. now apply (IH k).
Qed.

Lemma contains_find (s t : string) :
  contains s t -> is_npos (find s t) = false.
Proof.
  unfold find. intros (pre & post & ->).
  induction pre as [| c pre IH].
  - cbn [append]. destruct (t ++ post) as [| d r] eqn:E.
    + destruct t; [reflexivity | discriminate].
    + cbn [index]. rewrite <- E, prefix_append. reflexivity.
  - cbn [append index].
    destruct (prefix t (String c (pre ++ t ++ post))); [reflexivity |].
    destruct (index 0 t (pre ++ t ++ post)); [reflexivity | discriminate].
Qed.

Lemma find_iff_contains (s t : string) :
  is_npos (find s t) = false <-> contains s t.
Proof.
  split; [| apply contains_find].
  destruct (find s t) as [n |] eqn:E; [| discriminate].
  intros _. now apply (find_Some_contains s t n).
Qed.

Lemma newline_free_append (s t : string) :
  newline_free (s ++ t) = newline_free s && newline_free t.
Proof.
  induction s as [| c s IH]; simpl; [reflexivity |].
  now rewrite IH, andb_assoc.
Qed.

Lemma newline_free_uint (d : Decimal.uint) :
  newline_free (NilZero.string_of_uint d) = true.
Proof.
  assert (H : newline_free (NilEmpty.string_of_uint d) = true)
    by (induction d; simpl; auto).
  unfold NilZero.string_of_uint. now destruct d.
Qed.

Lemma newline_free_show_int (z : Z) : newline_free (show_int z) = true.
Proof.
  unfold show_int, NilZero.string_of_int.
  destruct (Z.to_int z); [| simpl]; apply newline_free_uint.
Qed.

(** A line and what follows it. *)
Lemma lines_line (t s : string) :
  newline_free t = true -> lines (t ++ nl ++ s) = t :: lines s.
Proof.
  induction t as [| c t IH]; intros H.
  - reflexivity.
  - simpl in H. apply andb_true_iff in H as [Hc Ht].
    cbn [append lines]. apply negb_true_iff in Hc. rewrite Hc.
    now rewrite (IH Ht).
Qed.

(** A last line that no line feed ends. *)
Lemma lines_last (t : string) :
  newline_free t = true -> t <> "" -> lines t = [t].
Proof.
  induction t as [| c t IH]; intros H Hne; [now elim Hne |].
  simpl in H. apply andb_true_iff in H as [Hc Ht].
  cbn [lines]. apply negb_true_iff in Hc. rewrite Hc.
  destruct t as [| d t]; [reflexivity |].
  now rewrite (IH Ht).
Qed.

End StringFacts.

(** ** The counter printer *)

Section CounterFacts.

Import hello.

(** One turn of the loop: the test [i < count], the body, then [++i]. *)
Lemma print_count_loop_unfold (count i : Z) (cout : ostream) :
  print_count_loop count i cout =
  if i <? count then
    match Int.incr i with
    | Some i' => print_count_loop count i' (cout << "Count: " << i << endl)
    | None => None
    end
  else Some cout.
Proof.
  rewrite print_count_loop_equation_1.
  destruct (Z_lt_dec i count) as [lt | ge].
  - rewrite (proj2 (Z.ltb_lt i count) lt).
    rewrite print_count_loop_clause_1_equation_1. unfold inspect.
    generalize (@eq_refl _ (Int.incr i)).
    generalize (Int.incr i) at 2 4 5.
    intros [i' |] e; now simp print_count_loop.
  - rewrite (proj2 (Z.ltb_ge i count)) by lia. now simp print_count_loop.
Qed.

Lemma print_count_loop_exit (count i : Z) (cout : ostream) :
  count <= i -> print_count_loop count i cout = Some cout.
Proof.
  intros H. rewrite print_count_loop_unfold.
  now rewrite (proj2 (Z.ltb_ge i count)) by lia.
Qed.

Lemma incr_below_max (i : Z) : i < Int.max -> Int.incr i = Some (i + 1).
Proof.
  intros H. unfold Int.incr. now rewrite (proj2 (Z.ltb_lt _ _) H).
Qed.

Lemma body_line_written (cout : ostream) (i : Z) :
  cout << "Count: " << i << endl = cout ++ "Count: " ++ show_int i ++ nl.
Proof.
  unfold insert, insert_string, insert_int, insert_manipulator.
  now rewrite !append_assoc.
Qed.

(** The loop never overflows its variable: from [i] it writes the body lines
    of [i], [i + 1], ..., [count - 1] and stops. *)
Lemma print_count_loop_spec (n : nat) :
  forall (count i : Z) (cout : ostream),
    0 <= i -> count <= Int.max -> Z.to_nat (count - i) = n ->
    print_count_loop count i cout =
    Some (cout ++ body_text (indices_from (Z.to_nat i) n)).
Proof.
  induction n as [| n IH]; intros count i cout Hi Hmax Hn.
  - rewrite print_count_loop_exit by lia. simpl. now rewrite append_nil_r.
  - rewrite print_count_loop_unfold.
    rewrite (proj2 (Z.ltb_lt i count)) by lia.
    rewrite incr_below_max by lia.
    rewrite (IH count (i + 1)) by lia.
    rewrite body_line_written, append_assoc.
    unfold indices_from. cbn [seq map body_text].
    rewrite Z2Nat.id by lia.
    replace (Z.to_nat (i + 1)) with (S (Z.to_nat i)) by lia.
    now rewrite !append_assoc.
Qed.

Lemma lines_body_text (indices : list Z) :
  lines (body_text indices) =
  map (fun i => "Count: " ++ show_int i) indices.
Proof.
  induction indices as [| i rest IH]; [reflexivity |].
  cbn [body_text map]. rewrite <- IH.
  rewrite <- (append_assoc "Count: " (show_int i)).
  apply lines_line. apply newline_free_show_int.
Qed.

Lemma print_count_written (count : Z) (cout0 : ostream) :
  0 <= count <= Int.max ->
  print_count count cout0 =
  Some (cout0 ++ "Counting demonstration:" ++ nl
              ++ body_text (indices_from 0 (Z.to_nat count))).
Proof.
  intros H. unfold print_count.
  rewrite (print_count_loop_spec (Z.to_nat count)) by lia.
  unfold insert, insert_string. now rewrite !append_assoc.
Qed.

Lemma nth_error_indices_from (n k : nat) :
  (k < n)%nat -> nth_error (indices_from 0 n) k = Some (Z.of_nat k).
Proof.
  intros H. unfold indices_from.
  rewrite nth_error_map, nth_error_nth' with (d := 0%nat)
    by now rewrite length_seq.
  now rewrite seq_nth.
Qed.

End CounterFacts.

(** ** The build-info reporter *)

Section BuildInfoFacts.

Import hello.

(** The three lines of the build-info string, as one text. *)
Lemma get_build_info_text (m : Macros) :
  get_build_info m =
  mode_label (if defined_DEBUG_BUILD m then debug
              else if defined_RELEASE_BUILD m then release else standard)
  ++ nl ++
  ("Compiler: " ++
   (if defined___clang__ m then
      "Clang " ++ show_int (__clang_major__ m) ++ "."
               ++ show_int (__clang_minor__ m)
    else if defined___GNUC__ m then
      "GCC " ++ show_int (__GNUC__ m) ++ "." ++ show_int (__GNUC_MINOR__ m)
    else "Unknown compiler"))
  ++ nl ++ "C++ Standard: " ++ show_int (__cplusplus m).
Proof.
  unfold get_build_info, insert, insert_string, insert_int.
  destruct (defined_DEBUG_BUILD m), (defined_RELEASE_BUILD m),
    (defined___clang__ m), (defined___GNUC__ m);
    cbn [mode_label]; rewrite ?append_assoc; reflexivity.
Qed.

Lemma get_build_info_lines (m : Macros) :
  lines (get_build_info m) =
  [ mode_label (if defined_DEBUG_BUILD m then debug
                else if defined_RELEASE_BUILD m then release else standard);
    "Compiler: " ++
    (if defined___clang__ m then
       "Clang " ++ show_int (__clang_major__ m) ++ "."
                ++ show_int (__clang_minor__ m)
     else if defined___GNUC__ m then
       "GCC " ++ show_int (__GNUC__ m) ++ "." ++ show_int (__GNUC_MINOR__ m)
     else "Unknown compiler");
    "C++ Standard: " ++ show_int (__cplusplus m) ].
Proof.
  rewrite get_build_info_text.
  rewrite lines_line.
  2: now destruct (defined_DEBUG_BUILD m), (defined_RELEASE_BUILD m).
  rewrite lines_line.
  2: { destruct (defined___clang__ m), (defined___GNUC__ m);
       rewrite ?newline_free_append, ?newline_free_show_int; reflexivity. }
  rewrite lines_last; [reflexivity | | discriminate].
  now rewrite newline_free_append, newline_free_show_int.
Qed.

Lemma get_build_info_not_empty (m : Macros) :
  empty (get_build_info m) = false.
Proof.
  rewrite get_build_info_text.
  now destruct (defined_DEBUG_BUILD m), (defined_RELEASE_BUILD m).
Qed.

Lemma mode_label_word (b b' : build_mode) :
  is_npos (find (mode_label b) (mode_word b')) = false <-> b' = b.
Proof.
  destruct b, b'; vm_compute; split; intros H;
    solve [reflexivity | discriminate].
Qed.

Lemma mode_label_build (b : build_mode) : contains (mode_label b) "build".
Proof. apply find_iff_contains. now destruct b. Qed.

End BuildInfoFacts.

(** ** The test program *)

Section HarnessFacts.

Import test_hello.

(** One call of [test_assert], from a state whose counters can still grow. *)
Lemma test_assert_step (condition : bool) (test_name : string) (st : process) :
  test_count st < Int.max -> test_passed st < Int.max ->
  test_assert condition test_name st =
  Some (tt, {| test_count := test_count st + 1;
               test_passed := test_passed st + (if condition then 1 else 0);
               cout := cout st ++ verdict (condition, test_name) |}).
Proof.
  intros Hc Hp. unfold test_assert, bind, incr_test_count.
  rewrite (incr_below_max _ Hc).
  destruct condition; unfold incr_test_passed, write, verdict;
    cbn [test_count test_passed cout fst snd].
  - rewrite (incr_below_max _ Hp).
    unfold insert, insert_string, insert_manipulator.
    now rewrite !append_assoc.
  - unfold insert, insert_string, insert_manipulator.
    now rewrite Z.add_0_r, !append_assoc.
Qed.

Lemma holding_cons (c : bool * string) (cs : list (bool * string)) :
  Z.of_nat (holding (c :: cs)) =
  (if fst c then 1 else 0) + Z.of_nat (holding cs).
Proof. unfold holding. cbn [filter]. destruct (fst c); cbn [length]; lia. Qed.

Lemma holding_failing (cs : list (bool * string)) :
  (holding cs + failing cs = length cs)%nat.
Proof.
  unfold holding, failing.
  induction cs as [| c cs IH]; [reflexivity |].
  cbn [filter]. destruct (fst c); cbn [negb length]; lia.
Qed.

(** A run of checks never stops early: every check is counted, and those that
    hold are counted as passed. *)
Lemma run_checks_spec (cs : list (bool * string)) :
  forall st : process,
    0 <= test_passed st <= test_count st ->
    test_count st + Z.of_nat (length cs) <= Int.max ->
    run_checks cs st =
    Some (tt, {| test_count := test_count st + Z.of_nat (length cs);
                 test_passed := test_passed st + Z.of_nat (holding cs);
                 cout := cout st ++ verdicts cs |}).
Proof.
  induction cs as [| [condition test_name] cs IH]; intros st Hinv Hmax.
  - cbn [run_checks ret length holding verdicts]. destruct st as [c p o].
    cbn [test_count test_passed cout]. unfold holding. cbn [filter length].
    now rewrite !Z.add_0_r, append_nil_r.
  - cbn [length] in Hmax. cbn [run_checks]. unfold bind.
    rewrite test_assert_step by lia.
    rewrite IH; cbn [test_count test_passed cout].
    + rewrite holding_cons. cbn [fst verdicts length].
      rewrite append_assoc. do 2 f_equal. f_equal; [lia |].
      destruct condition; lia.
    + destruct condition; lia.
    + lia.
Qed.

(** The report leaves the counters alone and turns them into the exit
    status. *)
Lemma report_spec (st : process) :
  0 <= test_passed st <= test_count st -> test_count st <= Int.max ->
  exists out,
    report st =
    Some (if test_passed st =? test_count st then 0 else 1,
          {| test_count := test_count st;
             test_passed := test_passed st;
             cout := out |}).
Proof.
  destruct st as [c p o]. cbn [test_count test_passed cout].
  intros Hinv Hmax. unfold report, bind, write, read, lift, ret.
  cbn [test_count test_passed cout].
  assert (Hsub : Int.sub c p = Some (c - p)).
  { unfold Int.sub.
    assert (Hmin : Int.min < 0) by reflexivity.
    rewrite (proj2 (Z.leb_le _ _)) by lia.
    now rewrite (proj2 (Z.leb_le _ _)) by lia. }
  rewrite Hsub. cbn [test_count test_passed cout].
  destruct (p =? c); eexists; reflexivity.
Qed.

(** [main] is its banner, its checks in order, and its report. *)
Lemma main_sequence (lib : hello_hpp) (st : process) :
  main lib st =
  (banner ;; run_checks (checks lib) ;; report) st.
Proof.
  unfold main, checks, banner, report. cbn [run_checks].
  unfold bind, write, ret. cbv beta iota.
  repeat match goal with
         | |- context [test_assert ?c ?n ?s] =>
             destruct (test_assert c n s) as [[[] ?] |]; cbv beta iota
         end;
    reflexivity.
Qed.

End HarnessFacts.

(** * The claims *)

(** ** Greeting producer *)

(** C9. For every name, [get_greeting] returns exactly ["Hello, "], then the
    name, then [" from C++! "] and the rocket (the four bytes F0 9F 9A 80);
    so every greeting begins with ["Hello, "], ends with the same fixed
    suffix, and is 22 bytes longer than the name. *)
Theorem get_greeting_exact (name : string) :
  hello.get_greeting name = "Hello, " ++ name ++ " from C++! " ++ rocket /\
  prefix "Hello, " (hello.get_greeting name) = true /\
  (exists before,
      hello.get_greeting name = before ++ " from C++! " ++ rocket) /\
  String.length (hello.get_greeting name) = (String.length name + 22)%nat.
Proof.
  assert (E : hello.get_greeting name
              = "Hello, " ++ name ++ " from C++! " ++ rocket) by reflexivity.
  split; [exact E |]. split; [| split].
  - apply prefix_append.
  - exists ("Hello, " ++ name). now rewrite append_assoc.
  - rewrite E, !length_append. cbn [String.length rocket]. lia.
Qed.

(** C4. For every name, the empty one included, the greeting contains the
    name and the identity marker ["C++"], and [find] reports both.
    [get_greeting] is a function from strings to strings: it reads and
    writes no state and has a result for every name. *)
Theorem get_greeting_contains_name_and_marker (name : string) :
  exists greeting,
    hello.get_greeting name = greeting /\
    contains greeting name /\
    contains greeting "C++" /\
    is_npos (find greeting name) = false /\
    is_npos (find greeting "C++") = false.
Proof.
  exists (hello.get_greeting name).
  assert (Hname : contains (hello.get_greeting name) name)
    by now exists "Hello, ", " from C++! 🚀".
  assert (Hmark : contains (hello.get_greeting name) "C++").
  { exists ("Hello, " ++ name ++ " from "), ("! 🚀").
    unfold hello.get_greeting. now rewrite !append_assoc. }
  split; [reflexivity |].
  split; [exact Hname |]. split; [exact Hmark |].
  split; now apply contains_find.
Qed.

(** C7. A call of [get_greeting] without argument greets the default
    placeholder declared in [hello.hpp]: the result contains ["World"]. *)
Theorem get_greeting_default_contains_World :
  hello.call_get_greeting None = hello.get_greeting "World" /\
  contains (hello.call_get_greeting None) "World" /\
  is_npos (find (hello.call_get_greeting None) "World") = false.
Proof.
  split; [reflexivity |]. split; [| reflexivity].
  now exists "Hello, ", " from C++! 🚀".
Qed.

(** ** Counter printer *)

(** C1. For every count [C] from 0 to [INT_MAX], [print_count] appends to the
    stream a text whose lines are the header followed by exactly [C] body
    lines; the body line after [k] others is ["Count: "] and the decimal
    [k], for [k] from 0 to [C - 1]; for [C = 0] the header is the only
    line. *)
Theorem print_count_header_and_body (C : Z) (cout0 : ostream) :
  0 <= C <= Int.max ->
  exists written,
    hello.print_count C cout0 = Some (cout0 ++ written) /\
    lines written =
      "Counting demonstration:"
      :: map (fun i => "Count: " ++ show_int i) (indices_from 0 (Z.to_nat C)) /\
    length (lines written) = S (Z.to_nat C) /\
    nth_error (lines written) 0 = Some "Counting demonstration:" /\
    (forall k, 0 <= k < C ->
       nth_error (lines written) (S (Z.to_nat k))
       = Some ("Count: " ++ show_int k)) /\
    (C = 0 -> lines written = ["Counting demonstration:"]).
Proof.
  intros HC.
  exists ("Counting demonstration:" ++ nl
          ++ body_text (indices_from 0 (Z.to_nat C))).
  assert (L : lines ("Counting demonstration:" ++ nl
                     ++ body_text (indices_from 0 (Z.to_nat C)))
              = "Counting demonstration:"
                :: map (fun i => "Count: " ++ show_int i)
                       (indices_from 0 (Z.to_nat C))).
  { rewrite lines_line by reflexivity. now rewrite lines_body_text. }
  split; [now apply print_count_written |].
  split; [exact L |]. rewrite L.
  split.
  { cbn [length]. unfold indices_from. now rewrite !length_map, length_seq. }
  split; [reflexivity |].
  split.
  - intros k Hk. cbn [nth_error].
    rewrite nth_error_map, nth_error_indices_from by lia.
    cbn [option_map]. now rewrite Z2Nat.id by lia.
  - now intros ->.
Qed.

(** Scenario 3: [print_count(5)] on an empty stream. *)
Lemma print_count_header_and_body_five :
  0 <= 5 <= Int.max /\
  exists written,
    hello.print_count 5 "" = Some ("" ++ written) /\
    lines written =
      "Counting demonstration:"
      :: map (fun i => "Count: " ++ show_int i) (indices_from 0 (Z.to_nat 5)) /\
    length (lines written) = S (Z.to_nat 5) /\
    nth_error (lines written) 0 = Some "Counting demonstration:" /\
    (forall k, 0 <= k < 5 ->
       nth_error (lines written) (S (Z.to_nat k))
       = Some ("Count: " ++ show_int k)) /\
    (5 = 0 -> lines written = ["Counting demonstration:"]).
Proof.
  assert (H : 0 <= 5 <= Int.max) by (unfold Int.max; lia).
  split; [exact H |]. exact (print_count_header_and_body 5 "" H).
Defined.

(** C10. [print_count] has a result for every [int]: it never runs into
    undefined behaviour and always returns.  For a negative count it writes
    the header line and nothing else. *)
Theorem print_count_total (count : Z) (cout0 : ostream) :
  Int.in_range count ->
  (exists cout1, hello.print_count count cout0 = Some cout1) /\
  (count < 0 ->
     hello.print_count count cout0
     = Some (cout0 ++ "Counting demonstration:" ++ nl) /\
     lines ("Counting demonstration:" ++ nl) = ["Counting demonstration:"]).
Proof.
  intros [Hmin Hmax].
  assert (Hneg : count < 0 ->
                 hello.print_count count cout0
                 = Some (cout0 ++ "Counting demonstration:" ++ nl)).
  { intros Hc. unfold hello.print_count.
    now rewrite print_count_loop_exit by lia. }
  split.
  - destruct (Z_lt_dec count 0) as [Hc | Hc].
    + eexists. exact (Hneg Hc).
    + eexists. apply print_count_written. lia.
  - intros Hc. split; [exact (Hneg Hc) | reflexivity].
Qed.

(** A negative count, [print_count(-3)], on an empty stream. *)
Lemma print_count_total_minus_three :
  Int.in_range (-3) /\
  (exists cout1, hello.print_count (-3) "" = Some cout1) /\
  (-3 < 0 ->
     hello.print_count (-3) ""
     = Some ("" ++ "Counting demonstration:" ++ nl) /\
     lines ("Counting demonstration:" ++ nl) = ["Counting demonstration:"]).
Proof.
  assert (H : Int.in_range (-3))
    by (unfold Int.in_range, Int.min, Int.max; lia).
  split; [exact H |]. exact (print_count_total (-3) "" H).
Defined.

(** ** Build-info reporter *)

(** C3. For every configuration of the macros, the build-info string is not
    empty; its first line is the label of one build mode, and that label
    holds the word of this mode and of no other; the mode is standard
    exactly when neither [DEBUG_BUILD] nor [RELEASE_BUILD] is defined, debug
    exactly when [DEBUG_BUILD] is, and release exactly when [RELEASE_BUILD]
    is and [DEBUG_BUILD] is not. *)
Theorem get_build_info_mode_label (m : hello.Macros) :
  empty (hello.get_build_info m) = false /\
  exists mode rest,
    lines (hello.get_build_info m) = mode_label mode :: rest /\
    contains (hello.get_build_info m) (mode_label mode) /\
    (forall mode',
        is_npos (find (mode_label mode) (mode_word mode')) = false
        <-> mode' = mode) /\
    (mode = standard
     <-> hello.defined_DEBUG_BUILD m = false
         /\ hello.defined_RELEASE_BUILD m = false) /\
    (mode = debug <-> hello.defined_DEBUG_BUILD m = true) /\
    (mode = release
     <-> hello.defined_DEBUG_BUILD m = false
         /\ hello.defined_RELEASE_BUILD m = true).
Proof.
  split; [apply get_build_info_not_empty |].
  eexists. eexists.
  split; [apply get_build_info_lines |].
  split.
  { rewrite get_build_info_text. eexists "", _. reflexivity. }
  split; [intros mode'; apply mode_label_word |].
  destruct (hello.defined_DEBUG_BUILD m), (hello.defined_RELEASE_BUILD m);
    repeat split; intros; try tauto; try discriminate;
    match goal with H : _ /\ _ |- _ => destruct H; discriminate end.
Qed.

(** C6. For every configuration of the macros, the build-info string has
    three lines and the second names the compiler: Clang with its major and
    minor version when [__clang__] is defined; otherwise GCC with its major
    and minor version when [__GNUC__] is defined; otherwise the fallback
    text. *)
Theorem get_build_info_compiler_line (m : hello.Macros) :
  exists mode_line compiler_line standard_line,
    lines (hello.get_build_info m)
    = [mode_line; compiler_line; standard_line] /\
    (hello.defined___clang__ m = true ->
     compiler_line
     = "Compiler: Clang " ++ show_int (hello.__clang_major__ m) ++ "."
                          ++ show_int (hello.__clang_minor__ m)) /\
    (hello.defined___clang__ m = false ->
     hello.defined___GNUC__ m = true ->
     compiler_line
     = "Compiler: GCC " ++ show_int (hello.__GNUC__ m) ++ "."
                        ++ show_int (hello.__GNUC_MINOR__ m)) /\
    (hello.defined___clang__ m = false ->
     hello.defined___GNUC__ m = false ->
     compiler_line = "Compiler: Unknown compiler").
Proof.
  do 3 eexists. split; [apply get_build_info_lines |].
  destruct (hello.defined___clang__ m), (hello.defined___GNUC__ m);
    repeat split; intros; try discriminate; reflexivity.
Qed.

(** ** Entry point *)

(** C8. For every configuration of the macros and every earlier content of
    the stream, [main] writes the greeting of ["World"], the descriptive
    line, the build info and the counter of 5 (the declared default count),
    in this order, and returns 0; it has no other outcome. *)
Theorem app_main_fixed_sequence (m : hello.Macros) (cout0 : ostream) :
  app.main m cout0 =
  Some (0,
        cout0 ++ hello.get_greeting "World" ++ nl
        ++ "This is a C++ console application created with nix-polyglot."
        ++ nl ++ nl
        ++ hello.get_build_info m ++ nl ++ nl
        ++ "Counting demonstration:" ++ nl
        ++ "Count: 0" ++ nl ++ "Count: 1" ++ nl ++ "Count: 2" ++ nl
        ++ "Count: 3" ++ nl ++ "Count: 4" ++ nl) /\
  (forall cout, hello.print_count 5 cout = hello.call_print_count None cout).
Proof.
  split; [| reflexivity].
  unfold app.main.
  rewrite print_count_written by (unfold Int.max; lia).
  unfold insert, insert_string, insert_manipulator.
  rewrite !append_assoc. reflexivity.
Qed.

(** ** Test program *)

Section HarnessClaims.

Import test_hello.

Variable lib : hello_hpp.

Lemma checks_length : length (checks lib) = 5%nat.
Proof. reflexivity. Qed.

Lemma banner_start :
  banner start
  = Some (tt, {| test_count := 0; test_passed := 0;
                 cout := "Running C++ tests..." ++ nl ++ nl |}).
Proof. reflexivity. Qed.

(** The state in which [main] has made its first [k] checks. *)
Lemma prefix_state (k : nat) :
  (banner ;; run_checks (firstn k (checks lib))) start =
  Some (tt, {| test_count := Z.of_nat (length (firstn k (checks lib)));
               test_passed := Z.of_nat (holding (firstn k (checks lib)));
               cout := ("Running C++ tests..." ++ nl ++ nl)
                       ++ verdicts (firstn k (checks lib)) |}).
Proof.
  unfold bind at 1. rewrite banner_start.
  assert (Hlen : (length (firstn k (checks lib)) <= 5)%nat).
  { rewrite length_firstn, checks_length. lia. }
  rewrite run_checks_spec; cbn [test_count test_passed cout].
  - reflexivity.
  - lia.
  - unfold Int.max. lia.
Qed.

(** After all its checks, [main] reports from a state that counts the five
    of them. *)
Lemma main_report :
  main lib start =
  report {| test_count := 5;
            test_passed := Z.of_nat (holding (checks lib));
            cout := ("Running C++ tests..." ++ nl ++ nl)
                    ++ verdicts (checks lib) |}.
Proof.
  rewrite main_sequence. unfold bind. rewrite banner_start.
  rewrite run_checks_spec; cbn [test_count test_passed cout].
  - reflexivity.
  - lia.
  - rewrite checks_length. unfold Int.max. lia.
Qed.

Lemma holding_le_length (cs : list (bool * string)) :
  (holding cs <= length cs)%nat.
Proof. pose proof (holding_failing cs). lia. Qed.

End HarnessClaims.

Section HarnessTheorems.

Import test_hello.

(** C2. Whatever the functions under test return, and for every number [k]
    of checks that [main] has made: the run count is the number of checks
    made, the passed count is the number of those whose condition held,
    passed is at most run, and run minus passed (the failed count, as [main]
    computes it) is the number of checks whose condition did not hold.  A
    further call of [test_assert] adds one to the run count, and one to the
    passed count exactly when its condition holds.  No outcome of a check
    stops [main]: it always ends with a run count of 5. *)
Theorem test_assert_tally_invariant (lib : hello_hpp) (k : nat) :
  exists st,
    (banner ;; run_checks (firstn k (checks lib))) start = Some (tt, st) /\
    test_count st = Z.of_nat (length (firstn k (checks lib))) /\
    test_passed st = Z.of_nat (holding (firstn k (checks lib))) /\
    0 <= test_passed st <= test_count st /\
    Int.sub (test_count st) (test_passed st)
    = Some (Z.of_nat (failing (firstn k (checks lib)))) /\
    (forall condition test_name,
        exists st',
          test_assert condition test_name st = Some (tt, st') /\
          test_count st' = test_count st + 1 /\
          test_passed st' = test_passed st + (if condition then 1 else 0)) /\
    (exists status final,
        main lib start = Some (status, final) /\
        main lib start = (banner ;; run_checks (checks lib) ;; report) start /\
        test_count final = 5).
Proof.
  eexists. split; [apply prefix_state |].
  cbn [test_count test_passed cout].
  pose proof (holding_le_length (firstn k (checks lib))) as Hle.
  pose proof (holding_failing (firstn k (checks lib))) as Hsum.
  assert (Hlen : (length (firstn k (checks lib)) <= 5)%nat).
  { rewrite length_firstn, checks_length. lia. }
  split; [reflexivity |]. split; [reflexivity |]. split; [lia |].
  split.
  { unfold Int.sub.
    assert (Hmin : Int.min < 0) by reflexivity.
    assert (Hmax : 5 < Int.max) by reflexivity.
    rewrite (proj2 (Z.leb_le _ _)) by lia.
    rewrite (proj2 (Z.leb_le _ _)) by lia.
    cbn [andb]. f_equal. lia. }
  split.
  { intros condition test_name. eexists.
    split; [apply test_assert_step |]; cbn [test_count test_passed cout].
    - unfold Int.max. lia.
    - unfold Int.max. lia.
    - split; reflexivity. }
  destruct (report_spec
              {| test_count := 5;
                 test_passed := Z.of_nat (holding (checks lib));
                 cout := ("Running C++ tests..." ++ nl ++ nl)
                         ++ verdicts (checks lib) |}) as [out Hout];
    cbn [test_count test_passed cout].
  - pose proof (holding_le_length (checks lib)). rewrite checks_length in *. lia.
  - unfold Int.max. lia.
  - cbn [test_count test_passed cout] in Hout.
    do 2 eexists. split; [rewrite main_report; exact Hout |].
    split; [apply main_sequence | reflexivity].
Qed.

(** C5. Whatever the functions under test return, [main] runs its five
    checks and returns an exit status that is 0 exactly when the passed
    count equals the run count, and 1 otherwise. *)
Theorem test_main_exit_status (lib : hello_hpp) :
  exists status st,
    main lib start = Some (status, st) /\
    test_count st = Z.of_nat (length (checks lib)) /\
    test_passed st = Z.of_nat (holding (checks lib)) /\
    (status = 0 <-> test_passed st = test_count st) /\
    (test_passed st <> test_count st -> status = 1).
Proof.
  rewrite main_report.
  destruct (report_spec
              {| test_count := 5;
                 test_passed := Z.of_nat (holding (checks lib));
                 cout := ("Running C++ tests..." ++ nl ++ nl)
                         ++ verdicts (checks lib) |}) as [out Hout];
    cbn [test_count test_passed cout] in *.
  3: rewrite Hout.
  - pose proof (holding_le_length (checks lib)). rewrite checks_length in *. lia.
  - unfold Int.max. lia.
  - do 2 eexists. split; [reflexivity |].
    cbn [test_count test_passed cout].
    split; [reflexivity |]. split; [reflexivity |].
    destruct (Z.eqb_spec (Z.of_nat (holding (checks lib))) 5) as [E | E].
    + split; [tauto | intros H; now elim H].
    + split; [split; intros H; [discriminate | now elim E] | reflexivity].
Qed.

End HarnessTheorems.

(** ** The test program on [hello.cpp] itself *)

Section Scenario.

Import test_hello.

Lemma get_build_info_contains_build (m : hello.Macros) :
  contains (hello.get_build_info m) "build".
Proof.
  rewrite get_build_info_text.
  apply contains_append_l, mode_label_build.
Qed.

Lemma checks_hello_cpp (m : hello.Macros) :
  map fst (checks (hello_cpp m)) = [true; true; true; true; true].
Proof.
  unfold checks, hello_cpp.
  cbn [get_greeting get_build_info map fst].
  rewrite (contains_find _ _ (get_build_info_contains_build m)).
  rewrite (get_build_info_not_empty m).
  reflexivity.
Qed.

(** X9 (scenario 4). Compiled against [hello.cpp], with any configuration
    of the macros, every one of the five checks passes, the tally is 5 of 5,
    the output is the one below and the exit status is 0. *)
Lemma test_main_hello_cpp (m : hello.Macros) :
  main (hello_cpp m) start =
  Some (0,
        {| test_count := 5;
           test_passed := 5;
           cout :=
             "Running C++ tests..." ++ nl ++ nl
             ++ "✅ PASS: get_greeting should contain 'Hello, Test'" ++ nl
             ++ "✅ PASS: get_greeting should contain 'C++'" ++ nl
             ++ "✅ PASS: default greeting should contain 'World'" ++ nl
             ++ "✅ PASS: build_info should not be empty" ++ nl
             ++ "✅ PASS: build_info should contain 'build'" ++ nl
             ++ nl ++ "📊 Test Results:" ++ nl
             ++ "Tests run: 5" ++ nl
             ++ "Tests passed: 5" ++ nl
             ++ "Tests failed: 0" ++ nl
             ++ "🎉 All tests passed!" ++ nl |}).
Proof.
  rewrite main_report.
  unfold holding, checks, hello_cpp.
  cbn [get_greeting get_build_info].
  rewrite (contains_find _ _ (get_build_info_contains_build m)).
  rewrite (get_build_info_not_empty m).
  reflexivity.
Qed.

End Scenario.

(** ** Concrete runs *)

Section Runs.

(** Scenario 1. *)
Example get_greeting_Test :
  hello.get_greeting "Test" = "Hello, Test from C++! 🚀" /\
  find (hello.get_greeting "Test") "Hello, Test" = Some 0%nat /\
  find (hello.get_greeting "Test") "C++" = Some 17%nat.
Proof. repeat split. Qed.

Example get_greeting_empty_name :
  hello.get_greeting "" = "Hello,  from C++! 🚀" /\
  find (hello.get_greeting "") "" = Some 0%nat.
Proof. repeat split. Qed.

(** Scenario 3. *)
Example print_count_5 :
  hello.print_count 5 "" =
  Some ("Counting demonstration:" ++ nl
        ++ "Count: 0" ++ nl ++ "Count: 1" ++ nl ++ "Count: 2" ++ nl
        ++ "Count: 3" ++ nl ++ "Count: 4" ++ nl).
Proof. vm_compute. reflexivity. Qed.

Example print_count_0 :
  hello.print_count 0 "" = Some ("Counting demonstration:" ++ nl).
Proof. vm_compute. reflexivity. Qed.

Example print_count_INT_MIN :
  hello.print_count Int.min "" = Some ("Counting demonstration:" ++ nl).
Proof. vm_compute. reflexivity. Qed.

Example get_build_info_gcc_release :
  lines (hello.get_build_info gcc_release) =
  [ "🚀 Running RELEASE build (optimized)";
    "Compiler: GCC 13.2";
    "C++ Standard: 201703" ].
Proof. vm_compute. reflexivity. Qed.

(** Clang defines [__GNUC__] as well; it is reported as Clang. *)
Example get_build_info_clang_debug :
  lines (hello.get_build_info {|
    hello.defined_DEBUG_BUILD := true;
    hello.defined_RELEASE_BUILD := true;
    hello.defined___clang__ := true;
    hello.__clang_major__ := 17;
    hello.__clang_minor__ := 0;
    hello.defined___GNUC__ := true;
    hello.__GNUC__ := 4;
    hello.__GNUC_MINOR__ := 2;
    hello.__cplusplus := 202002
  |}) =
  [ "🔧 Running DEBUG build (dev mode)";
    "Compiler: Clang 17.0";
    "C++ Standard: 202002" ].
Proof. vm_compute. reflexivity. Qed.

(** A library that fails every check: all five checks still run, and the
    exit status is 1. *)
Example test_main_all_fail :
  option_map
    (fun r => (fst r, test_hello.test_count (snd r),
               test_hello.test_passed (snd r)))
    (test_hello.main
       {| test_hello.get_greeting := fun _ => "";
          test_hello.get_build_info := fun _ => "" |}
       test_hello.start)
  = Some (1, 5, 0).
Proof. vm_compute. reflexivity. Qed.

End Runs.

(** * Further properties of the code *)

(** ** Greeting producer *)

Section GreetingFacts.

Lemma substring_append (s t : string) :
  substring 0 (String.length s) (s ++ t) = s.
Proof.
  induction s as [| c s IH]; cbn [String.length append substring].
  - now destruct t.
  - now rewrite IH.
Qed.

End GreetingFacts.

(** X1. The name can be read back from a greeting: dropping the 7 bytes of
    ["Hello, "] and the 15 bytes of the suffix leaves the name.  Hence two
    names have the same greeting only when they are the same name. *)
Theorem get_greeting_name_recovered (name other : string) :
  substring 7 (String.length (hello.get_greeting name) - 22)
            (hello.get_greeting name) = name /\
  (hello.get_greeting name = hello.get_greeting other <-> name = other).
Proof.
  assert (R : forall n,
             substring 7 (String.length (hello.get_greeting n) - 22)
                       (hello.get_greeting n) = n).
  { intros n. unfold hello.get_greeting.
    rewrite !length_append.
    replace (String.length "Hello, " + (String.length n
             + String.length " from C++! 🚀") - 22)%nat
      with (String.length n) by (cbn [String.length]; lia).
    cbn [append substring]. apply substring_append. }
  split; [apply R |].
  split; [| now intros ->].
  intros E. rewrite <- (R name), <- (R other), E. reflexivity.
Qed.

(** X2. A greeting has a line feed only if the name has one: for a name
    without line feed the greeting is a single line. *)
Theorem get_greeting_single_line (name : string) :
  newline_free (hello.get_greeting name) = newline_free name /\
  (newline_free name = true ->
   lines (hello.get_greeting name) = [hello.get_greeting name] /\
   lines (hello.get_greeting name ++ nl) = [hello.get_greeting name]).
Proof.
  assert (E : newline_free (hello.get_greeting name) = newline_free name).
  { unfold hello.get_greeting. rewrite !newline_free_append.
    change (newline_free "Hello, ") with true.
    change (newline_free " from C++! 🚀") with true.
    cbn [andb]. apply andb_true_r. }
  split; [exact E |]. intros H. rewrite <- E in H. split.
  - now apply lines_last.
  - rewrite <- (append_nil_r nl). now rewrite lines_line.
Qed.

(** ** Counter printer *)

Section CounterSteps.

Lemma body_text_app (xs ys : list Z) :
  body_text (xs ++ ys) = body_text xs ++ body_text ys.
Proof.
  induction xs as [| x xs IH]; [reflexivity |].
  cbn [app body_text]. now rewrite IH, !append_assoc.
Qed.

End CounterSteps.

(** X3. Counting one further: for [0 <= C < INT_MAX], [print_count(C + 1)]
    writes what [print_count(C)] writes and then the body line of [C]. *)
Theorem print_count_succ (C : Z) (cout0 : ostream) :
  0 <= C < Int.max ->
  hello.print_count (C + 1) cout0 =
  option_map (fun out => out ++ "Count: " ++ show_int C ++ nl)
             (hello.print_count C cout0).
Proof.
  intros H. rewrite !print_count_written by lia.
  cbn [option_map]. f_equal.
  replace (Z.to_nat (C + 1)) with (S (Z.to_nat C)) by lia.
  unfold indices_from. rewrite seq_S, map_app, body_text_app.
  cbn [plus map body_text]. rewrite Z2Nat.id by lia.
  now rewrite !append_assoc, append_nil_r.
Qed.

(** From four to five lines. *)
Lemma print_count_succ_four :
  0 <= 4 < Int.max /\
  hello.print_count (4 + 1) "" =
  option_map (fun out => out ++ "Count: " ++ show_int 4 ++ nl)
             (hello.print_count 4 "").
Proof.
  assert (H : 0 <= 4 < Int.max) by (unfold Int.max; lia).
  split; [exact H |]. exact (print_count_succ 4 "" H).
Defined.

(** ** Build-info reporter *)

(** X4. For every configuration of the macros, the third and last line of
    the build-info string is ["C++ Standard: "] and the decimal value of
    [__cplusplus]; the string does not end in a line feed, and none of its
    lines is empty. *)
Theorem get_build_info_standard_line (m : hello.Macros) :
  nth_error (lines (hello.get_build_info m)) 2
  = Some ("C++ Standard: " ++ show_int (hello.__cplusplus m)) /\
  length (lines (hello.get_build_info m)) = 3%nat /\
  (exists before,
      hello.get_build_info m
      = before ++ "C++ Standard: " ++ show_int (hello.__cplusplus m)) /\
  Forall (fun line => empty line = false) (lines (hello.get_build_info m)).
Proof.
  rewrite get_build_info_lines.
  split; [reflexivity |]. split; [reflexivity |]. split.
  - rewrite get_build_info_text. eexists.
    rewrite <- !append_assoc. reflexivity.
  - repeat constructor.
    now destruct (hello.defined_DEBUG_BUILD m),
      (hello.defined_RELEASE_BUILD m).
Qed.

(** ** Entry point *)

(** X5. From an empty stream, [main] writes thirteen lines: the greeting of
    ["World"], the descriptive line, an empty line, the three lines of the
    build info unchanged, an empty line, the header and the five body lines
    of the counter. *)
Theorem app_main_lines (m : hello.Macros) :
  exists out,
    app.main m "" = Some (0, out) /\
    lines out =
      ([ hello.get_greeting "World";
         "This is a C++ console application created with nix-polyglot.";
         "" ]
       ++ lines (hello.get_build_info m)
       ++ [ ""; "Counting demonstration:";
            "Count: 0"; "Count: 1"; "Count: 2"; "Count: 3"; "Count: 4" ])%list /\
    length (lines out) = 13%nat.
Proof.
  unfold app.main.
  rewrite print_count_written by (unfold Int.max; lia).
  eexists. split; [reflexivity |].
  rewrite get_build_info_lines.
  set (l1 := mode_label _). set (l2 := "Compiler: " ++ _).
  set (l3 := "C++ Standard: " ++ _).
  assert (T : ("" << hello.get_greeting "World" << endl
               << "This is a C++ console application created with nix-polyglot."
                  ++ nl << endl
               << hello.get_build_info m << nl << endl)
              ++ "Counting demonstration:" ++ nl
              ++ body_text (indices_from 0 (Z.to_nat 5))
              = hello.get_greeting "World" ++ nl
                ++ "This is a C++ console application created with nix-polyglot."
                ++ nl ++ "" ++ nl ++ l1 ++ nl ++ l2 ++ nl ++ l3 ++ nl ++ "" ++ nl
                ++ "Counting demonstration:" ++ nl
                ++ body_text (indices_from 0 (Z.to_nat 5))).
  { unfold insert, insert_string, insert_manipulator.
    rewrite get_build_info_text. fold l1 l2 l3.
    rewrite !append_assoc. reflexivity. }
  assert (H1 : newline_free l1 = true).
  { subst l1. now destruct (hello.defined_DEBUG_BUILD m),
      (hello.defined_RELEASE_BUILD m). }
  assert (H2 : newline_free l2 = true).
  { subst l2. destruct (hello.defined___clang__ m),
      (hello.defined___GNUC__ m);
      rewrite ?newline_free_append, ?newline_free_show_int; reflexivity. }
  assert (H3 : newline_free l3 = true).
  { subst l3. now rewrite newline_free_append, newline_free_show_int. }
  rewrite T.
  rewrite !lines_line by (assumption || reflexivity).
  rewrite lines_body_text. split; reflexivity.
Qed.

(** ** Test program *)

Section HarnessExtras.

Import test_hello.

Lemma lines_blank (s : string) : lines (nl ++ s) = "" :: lines s.
Proof. reflexivity. Qed.

Lemma lines_verdict (c : bool * string) (s : string) :
  newline_free (snd c) = true ->
  lines (verdict c ++ s) = verdict_line c :: lines s.
Proof.
  intros H. unfold verdict, verdict_line.
  rewrite <- (append_assoc _ (snd c) nl), append_assoc.
  apply lines_line. rewrite newline_free_append, H.
  now destruct (fst c).
Qed.

(** The report of [main] for any five conditions, line by line. *)
Lemma report_lines (b1 b2 b3 b4 b5 : bool) (n1 n2 n3 n4 n5 : string) :
  newline_free n1 = true -> newline_free n2 = true ->
  newline_free n3 = true -> newline_free n4 = true ->
  newline_free n5 = true ->
  let cs := [(b1, n1); (b2, n2); (b3, n3); (b4, n4); (b5, n5)] in
  let p := Z.of_nat (holding cs) in
  exists out,
    report {| test_count := 5; test_passed := p;
              cout := ("Running C++ tests..." ++ nl ++ nl) ++ verdicts cs |}
    = Some (if p =? 5 then 0 else 1,
            {| test_count := 5; test_passed := p; cout := out |}) /\
    lines out =
      (["Running C++ tests..."; ""]
       ++ map verdict_line cs
       ++ [""; "📊 Test Results:";
           "Tests run: 5";
           ("Tests passed: " ++ show_int p)%string;
           ("Tests failed: " ++ show_int (5 - p))%string;
           if p =? 5 then "🎉 All tests passed!"
           else "💥 Some tests failed!"])%list.
Proof.
  intros H1 H2 H3 H4 H5 cs p.
  assert (Hp : 0 <= p <= 5).
  { subst p. pose proof (holding_le_length cs). cbn [length cs] in *. lia. }
  assert (Hsub : Int.sub 5 p = Some (5 - p)).
  { unfold Int.sub.
    assert (Hmin : Int.min < 0) by reflexivity.
    assert (Hmax : 5 < Int.max) by reflexivity.
    rewrite (proj2 (Z.leb_le _ _)) by lia.
    now rewrite (proj2 (Z.leb_le _ _)) by lia. }
  unfold report, bind, write, read, lift, ret.
  cbn [test_count test_passed cout]. rewrite Hsub.
  cbn [test_count test_passed cout].
  assert (T : forall last : string,
             lines (((("Running C++ tests..." ++ nl ++ nl) ++ verdicts cs)
                     << nl ++ "📊 Test Results:" << endl
                     << "Tests run: " << 5 << endl
                     << "Tests passed: " << p << endl
                     << "Tests failed: " << (5 - p) << endl)
                    << last << endl)
             = (["Running C++ tests..."; ""]
                ++ map verdict_line cs
                ++ [""; "📊 Test Results:"; "Tests run: 5";
                    ("Tests passed: " ++ show_int p)%string;
                    ("Tests failed: " ++ show_int (5 - p))%string]
                ++ lines (last ++ nl)%string)%list).
  { intros last.
    unfold insert, insert_string, insert_int, insert_manipulator.
    subst cs. cbn [verdicts map app].
    rewrite !append_assoc.
    rewrite lines_line by reflexivity.
    rewrite lines_blank.
    rewrite !lines_verdict by assumption.
    rewrite (lines_line "") by reflexivity.
    rewrite lines_line by reflexivity.
    rewrite <- (append_assoc "Tests run: ").
    rewrite lines_line by reflexivity.
    rewrite <- (append_assoc "Tests passed: ").
    rewrite lines_line
      by now rewrite newline_free_append, newline_free_show_int.
    rewrite <- (append_assoc "Tests failed: ").
    rewrite lines_line
      by now rewrite newline_free_append, newline_free_show_int.
    reflexivity. }
  destruct (p =? 5); eexists; (split; [reflexivity |]); rewrite T;
    reflexivity.
Qed.

Lemma holding_five (b1 b2 b3 b4 b5 : bool) (n1 n2 n3 n4 n5 : string) :
  Z.of_nat (holding [(b1, n1); (b2, n2); (b3, n3); (b4, n4); (b5, n5)]) = 5
  <-> b1 = true /\ b2 = true /\ b3 = true /\ b4 = true /\ b5 = true.
Proof.
  unfold holding. destruct b1, b2, b3, b4, b5; cbn [filter fst length];
    split; intros H; try lia; try (repeat split; reflexivity);
    decompose [and] H; discriminate.
Qed.

Lemma found_iff_contains (s t : string) :
  negb (is_npos (find s t)) = true <-> contains s t.
Proof. rewrite negb_true_iff. apply find_iff_contains. Qed.

Lemma not_empty_iff (s : string) : negb (empty s) = true <-> s <> "".
Proof. destruct s; cbn; split; intros H; congruence. Qed.

End HarnessExtras.

Section HarnessExtraTheorems.

Import test_hello.

(** X6. [test_assert] keeps the tally sound from every state, not only those
    of [main]: if passed is between 0 and run, and run is below [INT_MAX],
    the call returns, run grows by one, passed is again between 0 and run,
    the failed count (run minus passed) grows by one exactly when the
    condition does not hold, and one line with the verdict and the label is
    added after the earlier output. *)
Theorem test_assert_keeps_tally
  (condition : bool) (test_name : string) (st : process) :
  0 <= test_passed st <= test_count st ->
  test_count st < Int.max ->
  exists st',
    test_assert condition test_name st = Some (tt, st') /\
    test_count st' = test_count st + 1 /\
    0 <= test_passed st' <= test_count st' /\
    test_count st' - test_passed st'
    = test_count st - test_passed st + (if condition then 0 else 1) /\
    cout st' = cout st ++ verdict_line (condition, test_name) ++ nl.
Proof.
  intros Hinv Hmax. eexists.
  split; [apply test_assert_step; lia |].
  cbn [test_count test_passed cout].
  split; [reflexivity |].
  split; [destruct condition; lia |].
  split; [destruct condition; lia |].
  unfold verdict, verdict_line. now rewrite append_assoc.
Qed.

(** A failing check as the first one of a run. *)
Lemma test_assert_keeps_tally_first :
  0 <= test_passed start <= test_count start /\
  test_count start < Int.max /\
  exists st',
    test_assert false "label" start = Some (tt, st') /\
    test_count st' = test_count start + 1 /\
    0 <= test_passed st' <= test_count st' /\
    test_count st' - test_passed st'
    = test_count start - test_passed start + (if false then 0 else 1) /\
    cout st' = cout start ++ verdict_line (false, "label") ++ nl.
Proof.
  assert (H1 : 0 <= test_passed start <= test_count start)
    by (cbn [start test_passed test_count]; lia).
  assert (H2 : test_count start < Int.max) by reflexivity.
  split; [exact H1 |]. split; [exact H2 |].
  exact (test_assert_keeps_tally false "label" start H1 H2).
Defined.

(** X7. Whatever the functions under test return, the test program writes
    thirteen lines: the banner and an empty line; one verdict line for each
    of the five checks, in program order, with its label; an empty line and
    the title of the results; the run count 5, the passed count and the
    failed count (5 minus passed); and the success message when the exit
    status is 0, the failure message otherwise. *)
Theorem test_main_output_lines (lib : hello_hpp) :
  exists status st,
    main lib start = Some (status, st) /\
    lines (cout st) =
      (["Running C++ tests..."; ""]
       ++ map verdict_line (checks lib)
       ++ [""; "📊 Test Results:";
           "Tests run: 5";
           ("Tests passed: " ++ show_int (test_passed st))%string;
           ("Tests failed: " ++ show_int (5 - test_passed st))%string;
           if status =? 0 then "🎉 All tests passed!"
           else "💥 Some tests failed!"])%list /\
    length (lines (cout st)) = 13%nat.
Proof.
  rewrite main_report.
  destruct (report_lines
              (negb (is_npos (find (get_greeting lib "Test") "Hello, Test")))
              (negb (is_npos (find (get_greeting lib "Test") "C++")))
              (negb (is_npos (find (get_greeting lib
                                      hello.get_greeting_default_name)
                                   "World")))
              (negb (empty (get_build_info lib tt)))
              (negb (is_npos (find (get_build_info lib tt) "build")))
              "get_greeting should contain 'Hello, Test'"
              "get_greeting should contain 'C++'"
              "default greeting should contain 'World'"
              "build_info should not be empty"
              "build_info should contain 'build'"
              eq_refl eq_refl eq_refl eq_refl eq_refl) as [out [Hrun Hlines]].
  fold (checks lib) in Hrun, Hlines.
  do 2 eexists. split; [exact Hrun |].
  cbn [cout test_passed]. rewrite Hlines.
  split; [| reflexivity].
  now destruct (Z.of_nat (holding (checks lib)) =? 5).
Qed.

(** X8. The test program returns 0 exactly when the functions under test
    meet the five content expectations: the greeting of ["Test"] contains
    ["Hello, Test"] and ["C++"], the default greeting contains ["World"],
    and the build info is not empty and contains ["build"].  Otherwise it
    returns 1. *)
Theorem test_main_passes_iff (lib : hello_hpp) :
  exists status st,
    main lib start = Some (status, st) /\
    (status = 0 \/ status = 1) /\
    (status = 0 <->
     contains (get_greeting lib "Test") "Hello, Test" /\
     contains (get_greeting lib "Test") "C++" /\
     contains (get_greeting lib "World") "World" /\
     get_build_info lib tt <> "" /\
     contains (get_build_info lib tt) "build").
Proof.
  rewrite main_report.
  destruct (report_spec
              {| test_count := 5;
                 test_passed := Z.of_nat (holding (checks lib));
                 cout := ("Running C++ tests..." ++ nl ++ nl)
                         ++ verdicts (checks lib) |}) as [out Hout];
    cbn [test_count test_passed cout] in *.
  - pose proof (holding_le_length (checks lib)). rewrite checks_length in *. lia.
  - unfold Int.max. lia.
  - rewrite Hout. do 2 eexists. split; [reflexivity |].
    rewrite <- !found_iff_contains, <- not_empty_iff.
    pose proof (holding_five
                  (negb (is_npos (find (get_greeting lib "Test")
                                       "Hello, Test")))
                  (negb (is_npos (find (get_greeting lib "Test") "C++")))
                  (negb (is_npos (find (get_greeting lib
                                          hello.get_greeting_default_name)
                                       "World")))
                  (negb (empty (get_build_info lib tt)))
                  (negb (is_npos (find (get_build_info lib tt) "build")))
                  "get_greeting should contain 'Hello, Test'"
                  "get_greeting should contain 'C++'"
                  "default greeting should contain 'World'"
                  "build_info should not be empty"
                  "build_info should contain 'build'") as H5.
    fold (checks lib) in H5.
    change hello.get_greeting_default_name with "World" in H5.
    rewrite <- H5.
    destruct (Z.eqb_spec (Z.of_nat (holding (checks lib))) 5) as [E | E].
    + split; [now left | tauto].
    + split; [now right |]. split; [discriminate | intros H; now elim E].
Qed.

End HarnessExtraTheorems.

(** ** The mode words in the whole build-info string *)

Section ModeWords.

Lemma has_char_append (c : ascii) (s t : string) :
  has_char c (s ++ t) = has_char c s || has_char c t.
Proof.
  induction s as [| d s IH]; cbn [append has_char]; [reflexivity |].
  now rewrite IH, orb_assoc.
Qed.

Lemma contains_has_char (c : ascii) (s t : string) :
  contains s t -> has_char c t = true -> has_char c s = true.
Proof.
  intros (pre & post & ->) H.
  rewrite !has_char_append, H. now rewrite orb_true_r.
Qed.

(** Decimal texts are made of digits and the minus sign. *)
Lemma has_char_show_int (c : ascii) (z : Z) :
  has_char c "-0123456789" = false -> has_char c (show_int z) = false.
Proof.
  intros H. cbn [has_char] in H.
  repeat (apply orb_false_iff in H as [? H]).
  assert (U : forall d, has_char c (NilEmpty.string_of_uint d) = false).
  { induction d; cbn [NilEmpty.string_of_uint has_char];
      [reflexivity | apply orb_false_iff; split; assumption ..]. }
  assert (U0 : forall d, has_char c (NilZero.string_of_uint d) = false).
  { intros d. unfold NilZero.string_of_uint.
    destruct d; try apply U. cbn [has_char]. now rewrite orb_false_r. }
  unfold show_int, NilZero.string_of_int.
  destruct (Z.to_int z); cbn [has_char]; rewrite ?U0; [reflexivity |].
  now rewrite orb_false_r.
Qed.

(** A byte that is in no fixed text of the compiler and standard lines,
    and in no decimal, is in the build-info string only through the mode
    label. *)
Lemma has_char_get_build_info (c : ascii) (m : hello.Macros) :
  has_char c "-0123456789" = false ->
  has_char c (nl ++ "Compiler: Clang GCC Unknown compiler." ++ "C++ Standard: ")
  = false ->
  has_char c (hello.get_build_info m)
  = has_char c (mode_label
                  (if hello.defined_DEBUG_BUILD m then debug
                   else if hello.defined_RELEASE_BUILD m then release
                   else standard)).
Proof.
  intros Hd Ht. rewrite get_build_info_text.
  pose proof (has_char_show_int c) as Hs. specialize (fun z => Hs z Hd).
  unfold nl, LF in *. cbn [append has_char] in Ht.
  repeat (apply orb_false_iff in Ht as [? Ht]).
  set (l := mode_label _).
  destruct (hello.defined___clang__ m), (hello.defined___GNUC__ m);
    rewrite !has_char_append, !Hs; cbn [has_char];
    repeat match goal with
           | H : (c =? _)%char = false |- _ => rewrite ?H; clear H
           end;
    cbn [orb]; now rewrite ?orb_false_r.
Qed.

End ModeWords.

(** X10. Searching the whole build-info string for a mode word: ["DEBUG"]
    occurs exactly when [DEBUG_BUILD] is defined, and ["RELEASE"] exactly
    when [RELEASE_BUILD] is defined and [DEBUG_BUILD] is not; but
    ["Standard"] occurs for every configuration (in the language-standard
    line), so it does not tell the standard mode from the others; ["build"]
    occurs for every configuration as well. *)
Theorem get_build_info_mode_words (m : hello.Macros) :
  (contains (hello.get_build_info m) "DEBUG"
   <-> hello.defined_DEBUG_BUILD m = true) /\
  (contains (hello.get_build_info m) "RELEASE"
   <-> hello.defined_DEBUG_BUILD m = false
       /\ hello.defined_RELEASE_BUILD m = true) /\
  contains (hello.get_build_info m) "Standard" /\
  contains (hello.get_build_info m) "build".
Proof.
  assert (HD : has_char "D" (hello.get_build_info m)
               = hello.defined_DEBUG_BUILD m).
  { rewrite has_char_get_build_info by reflexivity.
    now destruct (hello.defined_DEBUG_BUILD m),
      (hello.defined_RELEASE_BUILD m). }
  assert (HL : has_char "L" (hello.get_build_info m)
               = negb (hello.defined_DEBUG_BUILD m)
                 && hello.defined_RELEASE_BUILD m).
  { rewrite has_char_get_build_info by reflexivity.
    now destruct (hello.defined_DEBUG_BUILD m),
      (hello.defined_RELEASE_BUILD m). }
  split; [| split; [| split]].
  - split.
    + intros H. rewrite <- HD.
      now apply (contains_has_char "D" _ "DEBUG").
    + intros H. rewrite get_build_info_text, H.
      apply contains_append_l, find_iff_contains. reflexivity.
  - split.
    + intros H. apply (contains_has_char "L") in H; [| reflexivity].
      rewrite HL in H. apply andb_true_iff in H as [H1 H2].
      now apply negb_true_iff in H1.
    + intros [H1 H2]. rewrite get_build_info_text, H1, H2.
      apply contains_append_l, find_iff_contains. reflexivity.
  - rewrite get_build_info_text.
    do 4 apply contains_append_r.
    apply contains_append_l. now exists "C++ ", ": ".
  - rewrite get_build_info_text.
    apply contains_append_l, mode_label_build.
Qed.
